(** * artists.py: name keys, biography acceptance and the CSV rows

    A shallow embedding of [write_data], [check_if_artist] and [main] of
    [artists.py], with the Python string methods they call.

    Conventions.
    - A Python [str] is a [string]; a character is its code point, and the
      development covers the code points below 256 (Latin-1), on which
      [str.lower], [str.split] and [str.strip] are modelled exactly.
    - A raised exception is a value of [exception]; a computation that may
      raise returns a [result].
    - The csv writer is the list of rows written so far, oldest first.
    - [wikipedia.page] and [get_name_list] reach the network; they are taken
      as functions of their argument for the length of one run.
    - An entry is a display-name string with a link: an [<a>] element with
      no child, with an element as first child or with no [href] is outside
      the development, as are the exceptions lines 61, 62 and 66 raise for
      it.  A page is taken with its title, categories and summary already
      read: an exception raised while [.categories] or [.summary] is read is
      outside it too. *)

From Stdlib Require Import String Ascii List Bool Arith Lia.
Import ListNotations.
Open Scope list_scope.
Open Scope string_scope.

(** ** Python built-ins used by the program *)

Module Py.

(** [c in chars], for a character and a string. *)
Fixpoint mem (c : ascii) (chars : string) : bool :=
  match chars with
  | EmptyString => false
  | String d rest => if Ascii.eqb c d then true else mem c rest
  end.

(** Whitespace as [str.split()] sees it: TAB..CR, FS..US, space, NEL,
    NBSP. *)
Definition isspace (c : ascii) : bool :=
  let n := nat_of_ascii c in
  (((9 <=? n) && (n <=? 13)) || ((28 <=? n) && (n <=? 32))
   || (n =? 133) || (n =? 160))%nat.

(** [str.lower] on one character: A..Z, and the Latin-1 capitals
    U+00C0..U+00DE except the multiplication sign U+00D7. *)
Definition lower_char (c : ascii) : ascii :=
  let n := nat_of_ascii c in
  if (((65 <=? n) && (n <=? 90))
      || ((192 <=? n) && (n <=? 222) && negb (n =? 215)))%nat
  then ascii_of_nat (n + 32)
  else c.

Fixpoint lower (s : string) : string :=
  match s with
  | EmptyString => EmptyString
  | String c rest => String (lower_char c) (lower rest)
  end.

(** The token being scanned is closed: nothing is produced for an empty
    one. *)
Definition emit (cur : string) (tokens : list string) : list string :=
  match cur with
  | EmptyString => tokens
  | _ => cur :: tokens
  end.

(** [str.split()] scanning left to right; [cur] is the token read so
    far. *)
Fixpoint split_from (cur s : string) : list string :=
  match s with
  | EmptyString => emit cur []
  | String c rest =>
      if isspace c then emit cur (split_from EmptyString rest)
      else split_from (cur ++ String c EmptyString) rest
  end.

Definition split (s : string) : list string := split_from EmptyString s.

Fixpoint lstrip (chars s : string) : string :=
  match s with
  | EmptyString => EmptyString
  | String c rest => if mem c chars then lstrip chars rest else s
  end.

Fixpoint rstrip (chars s : string) : string :=
  match s with
  | EmptyString => EmptyString
  | String c rest =>
      match rstrip chars rest with
      | EmptyString => if mem c chars then EmptyString else String c EmptyString
      | kept => String c kept
      end
  end.

(** [str.strip(chars)]: the left end is moved first, then the right end
    down to it. *)
Definition strip (chars s : string) : string := rstrip chars (lstrip chars s).

(** [string.punctuation]; the character after [!] is the double quote,
    code 34. *)
Definition punctuation : string :=
  "!" ++ String (ascii_of_nat 34) "#$%&'()*+,-./:;<=>?@[\]^_`{|}~".

Definition ascii_uppercase : string := "ABCDEFGHIJKLMNOPQRSTUVWXYZ".

(** Every character of [s] satisfies [p]. *)
Fixpoint all_chars (p : ascii -> bool) (s : string) : bool :=
  match s with
  | EmptyString => true
  | String c rest => p c && all_chars p rest
  end.

(** [s] is one token: it holds no whitespace. *)
Definition no_space (s : string) : bool :=
  all_chars (fun c => negb (isspace c)) s.

(** The first, resp. the last, character of [s] is one of [chars]. *)
Definition begins_in (chars s : string) : bool :=
  match s with
  | EmptyString => false
  | String c _ => mem c chars
  end.

Fixpoint ends_in (chars s : string) : bool :=
  match s with
  | EmptyString => false
  | String c EmptyString => mem c chars
  | String _ rest => ends_in chars rest
  end.

(** [c] is one of A..Z, a..z. *)
Definition ascii_letter (c : ascii) : bool :=
  let n := nat_of_ascii c in
  (((65 <=? n) && (n <=? 90)) || ((97 <=? n) && (n <=? 122)))%nat.

End Py.

(** ** Exceptions and results *)

Inductive exception : Type :=
| IndexError
| WikipediaException          (* wikipedia.exceptions.WikipediaException *)
| PageError                   (* its subclasses *)
| DisambiguationError
| RedirectError
| HTTPTimeoutError
| OtherException (cls : string).   (* a class outside those above *)

(** What [except wikipedia.WikipediaException:] catches. *)
Definition isinstance_WikipediaException (e : exception) : bool :=
  match e with
  | WikipediaException | PageError | DisambiguationError
  | RedirectError | HTTPTimeoutError => true
  | IndexError | OtherException _ => false
  end.

Inductive result (A : Type) : Type :=
| Ok (a : A)
| Raise (e : exception).
Arguments Ok {A} a.
Arguments Raise {A} e.

(** [l[i]] *)
Definition index {A : Type} (l : list A) (i : nat) : result A :=
  match nth_error l i with
  | Some a => Ok a
  | None => Raise IndexError
  end.

Definition rbind {A B : Type} (r : result A) (k : A -> result B) : result B :=
  match r with
  | Ok a => k a
  | Raise e => Raise e
  end.

(** [try: body  except IndexError: handler] *)
Definition try_except_IndexError {A : Type} (body handler : result A) : result A :=
  match body with
  | Raise IndexError => handler
  | other => other
  end.

(** ** The data the program handles *)

(** An [<a>] element of the listing: its first child, a text node, and its
    [href] attribute. *)
Record anchor : Type := { contents0 : string; href : string }.

(** A page object of the wikipedia package, by the three attributes read. *)
Record WikipediaPage : Type :=
  { title : string; categories : list string; summary : string }.

Definition row : Type := list string.
Definition csv : Type := list row.

(** ** check_if_artist *)

Definition keywords : list string := ["art"; "artist"; "sculptor"; "painter"].

Definition in_keywords (w : string) : bool := existsb (String.eqb w) keywords.

(** The inner [for word in words] loop; [true] is the early [return True]. *)
Fixpoint scan_words (words : list string) : bool :=
  match words with
  | [] => false
  | word :: rest => if in_keywords (Py.lower word) then true else scan_words rest
  end.

(** The outer [for category in list_of_categories] loop. *)
Fixpoint scan_categories (list_of_categories : list string) : bool :=
  match list_of_categories with
  | [] => false
  | category :: rest =>
      if scan_words (Py.split category) then true else scan_categories rest
  end.

Definition check_if_artist (wiki_page : WikipediaPage) : bool :=
  scan_categories (categories wiki_page).

(** ** write_data, one entry *)

Definition no_entry : string := "No Wikipedia Entry Available for this artist".

(** The search key computed from the display name. *)
Definition wiki_name (name_content : string) : result string :=
  let list_first_last_name := Py.split name_content in
  try_except_IndexError
    (rbind (index list_first_last_name 1) (fun first =>
     rbind (index list_first_last_name 0) (fun last =>
     Ok (first ++ " " ++ Py.strip Py.punctuation last))))
    (rbind (index list_first_last_name 0) (fun only =>
     Ok (Py.strip Py.punctuation only))).

(** The summary chosen once [wikipedia.page(wiki_name)] has returned
    [looked_up] or raised. *)
Definition wiki_summary (key : string) (looked_up : result WikipediaPage)
  : result string :=
  match looked_up with
  | Ok wiki_page =>
      if (Py.lower (title wiki_page) =? Py.lower key)%string
         || check_if_artist wiki_page
      then Ok (summary wiki_page)
      else Ok no_entry
  | Raise e =>
      if isinstance_WikipediaException e then Ok no_entry else Raise e
  end.

Definition link_of (name : anchor) : string :=
  "https://web.archive.org" ++ href name.

(** ** Writing rows: state (the rows written) and exceptions *)

Definition io (A : Type) : Type := csv -> result A * csv.

Definition ret {A : Type} (a : A) : io A := fun file => (Ok a, file).

Definition bind {A B : Type} (m : io A) (k : A -> io B) : io B :=
  fun file =>
    match m file with
    | (Ok a, file') => k a file'
    | (Raise e, file') => (Raise e, file')
    end.

Definition lift {A : Type} (r : result A) : io A := fun file => (r, file).

Definition writerow (r : row) : io unit := fun file => (Ok tt, (file ++ [r])%list).

Notation "x <- m ;; k" := (bind m (fun x => k))
  (at level 61, m at next level, right associativity).
Notation "m ;;; k" := (bind m (fun _ => k))
  (at level 61, right associativity).

Fixpoint for_each {X : Type} (xs : list X) (body : X -> io unit) : io unit :=
  match xs with
  | [] => ret tt
  | x :: rest => body x ;;; for_each rest body
  end.

Definition header : row := ["Name"; "Link"; "Wiki Summary"].

Definition artist_list_url (character : ascii) : string :=
  "https://web.archive.org/web/20121007172955/https"
  ++ "://www.nga.gov/collection/an" ++ String character "1.htm".

Section Program.

Variable wikipedia_page : string -> result WikipediaPage.
Variable get_name_list : string -> result (list anchor).

(** The body of the [for name in name_list] loop. *)
Definition write_entry (name : anchor) : io unit :=
  let name_content := contents0 name in
  let link := link_of name in
  key <- lift (wiki_name name_content) ;;
  text <- lift (wiki_summary key (wikipedia_page key)) ;;
  writerow [name_content; link; text].

Definition write_data (name_list : list anchor) : io unit :=
  for_each name_list write_entry.

(** [main], started on the freshly truncated file. *)
Definition main : result unit * csv :=
  (writerow header ;;;
   for_each (list_ascii_of_string Py.ascii_uppercase) (fun character =>
     name_list <- lift (get_name_list (artist_list_url character)) ;;
     write_data name_list)) [].

(** The row of an entry, when its key and summary are computed without an
    exception reaching [write_data]. *)
Definition row_of (name : anchor) : result row :=
  rbind (wiki_name (contents0 name)) (fun key =>
  rbind (wiki_summary key (wikipedia_page key)) (fun text =>
  Ok [contents0 name; link_of name; text])).

End Program.

(** [r] is the row of [name]: the display name, the prefixed link, and the
    summary chosen for the key of the display name. *)
Definition is_row_of (wikipedia_page : string -> result WikipediaPage)
           (name : anchor) (r : row) : Prop :=
  exists key text,
    wiki_name (contents0 name) = Ok key
    /\ wiki_summary key (wikipedia_page key) = Ok text
    /\ r = [contents0 name; "https://web.archive.org" ++ href name; text].

(** An entry that [write_data] gets past: its display name has a token, and
    the lookup of its key raises nothing but a WikipediaException. *)
Definition passable (wikipedia_page : string -> result WikipediaPage)
           (name : anchor) : Prop :=
  Py.split (contents0 name) <> []
  /\ forall key e,
       wiki_name (contents0 name) = Ok key ->
       wikipedia_page key = Raise e ->
       isinstance_WikipediaException e = true.

(** The entries of the listing page of [character]; none when the page
    could not be read. *)
Definition listed (get_name_list : string -> result (list anchor))
           (character : ascii) : list anchor :=
  match get_name_list (artist_list_url character) with
  | Ok name_list => name_list
  | Raise _ => []
  end.

(** The body of the loop of [main] over the letters. *)
Definition write_page (wikipedia_page : string -> result WikipediaPage)
           (get_name_list : string -> result (list anchor))
           (character : ascii) : io unit :=
  name_list <- lift (get_name_list (artist_list_url character)) ;;
  write_data wikipedia_page name_list.

(** ** Sample inputs *)

Definition picasso_page : WikipediaPage :=
  {| title := "Pablo Picasso";
     categories := ["Spanish painters"];
     summary := "Pablo Picasso was..." |}.

Definition sample_lookup (key : string) : result WikipediaPage :=
  if (key =? "Pablo Picasso")%string then Ok picasso_page else Raise PageError.

Definition sample_listing (url : string) : result (list anchor) :=
  if (url =? artist_list_url "P")%string
  then Ok [ {| contents0 := "Picasso, Pablo"; href := "/a" |} ]
  else if (url =? artist_list_url "S")%string
  then Ok [ {| contents0 := "Smith, John"; href := "/b" |} ]
  else Ok [].

Example punctuation_length : String.length Py.punctuation = 32.
Proof. reflexivity. Qed.

Example split_sample :
  Py.split "  Gogh,  Vincent van " = ["Gogh,"; "Vincent"; "van"].
Proof. reflexivity. Qed.

Example strip_sample : Py.strip Py.punctuation "(O'Keeffe)," = "O'Keeffe".
Proof. reflexivity. Qed.

Example lower_sample : Py.lower "Pablo PICASSO" = "pablo picasso".
Proof. reflexivity. Qed.

Example wiki_name_sample : wiki_name "Picasso, Pablo" = Ok "Pablo Picasso".
Proof. reflexivity. Qed.

Example write_data_sample :
  write_data sample_lookup
    [ {| contents0 := "Picasso, Pablo"; href := "/a" |};
      {| contents0 := "Smith, John"; href := "/b" |} ] []
  = (Ok tt,
     [ ["Picasso, Pablo"; "https://web.archive.org/a"; "Pablo Picasso was..."];
       ["Smith, John"; "https://web.archive.org/b"; no_entry] ]).
Proof. reflexivity. Qed.

Example main_sample :
  main sample_lookup sample_listing
  = (Ok tt,
     [ ["Name"; "Link"; "Wiki Summary"];
       ["Picasso, Pablo"; "https://web.archive.org/a"; "Pablo Picasso was..."];
       ["Smith, John"; "https://web.archive.org/b";
        "No Wikipedia Entry Available for this artist"] ]).
Proof. reflexivity. Qed.

(** ** Facts about the string methods *)

Lemma append_assoc (a b c : string) : (a ++ b) ++ c = a ++ (b ++ c).
Proof.
  induction a as [|x a IH]; simpl; [reflexivity | now rewrite IH].
Qed.

Lemma append_empty_r (s : string) : s ++ "" = s.
Proof.
  induction s as [|x s IH]; simpl; [reflexivity | now rewrite IH].
Qed.

Lemma all_chars_app (p : ascii -> bool) (a b : string) :
  Py.all_chars p (a ++ b) = Py.all_chars p a && Py.all_chars p b.
Proof.
  induction a as [|x a IH]; simpl; [reflexivity |].
  now rewrite IH, andb_assoc.
Qed.

Lemma punctuation_not_space (c : ascii) :
  Py.mem c Py.punctuation = true -> Py.isspace c = false.
Proof.
  destruct c as [[] [] [] [] [] [] [] []]; vm_compute; congruence.
Qed.

Lemma all_punctuation_no_space (s : string) :
  Py.all_chars (fun c => Py.mem c Py.punctuation) s = true -> Py.no_space s = true.
Proof.
  unfold Py.no_space.
  induction s as [|c s IH]; simpl; [reflexivity |].
  intros H. apply andb_true_iff in H as [Hc Hs].
  now rewrite (punctuation_not_space _ Hc), IH.
Qed.

(** *** split *)

Lemma emit_nonempty (cur : string) (tokens : list string) :
  cur <> "" -> Py.emit cur tokens = cur :: tokens.
Proof.
  destruct cur; [congruence | reflexivity].
Qed.

(** A run of non-blank characters extends the token being read. *)
Lemma split_from_word (w cur s : string) :
  Py.no_space w = true ->
  Py.split_from cur (w ++ s) = Py.split_from (cur ++ w) s.
Proof.
  unfold Py.no_space.
  revert cur. induction w as [|c w IH]; simpl; intros cur H.
  - now rewrite append_empty_r.
  - apply andb_true_iff in H as [Hc Hw].
    apply negb_true_iff in Hc. rewrite Hc, (IH _ Hw), append_assoc.
    reflexivity.
Qed.

Lemma split_word_then_space (w : string) (c : ascii) (s : string) :
  Py.no_space w = true -> Py.isspace c = true ->
  Py.split (w ++ String c s) = Py.emit w (Py.split s).
Proof.
  intros Hw Hc. unfold Py.split.
  rewrite (split_from_word _ _ _ Hw). simpl. now rewrite Hc.
Qed.

Lemma split_word (w : string) :
  Py.no_space w = true -> Py.split w = Py.emit w [].
Proof.
  intros Hw. unfold Py.split.
  rewrite <- (append_empty_r w) at 1.
  now rewrite (split_from_word _ _ _ Hw).
Qed.

Lemma split_blank (s : string) :
  Py.all_chars Py.isspace s = true -> Py.split s = [].
Proof.
  unfold Py.split.
  induction s as [|c s IH]; simpl; [reflexivity |].
  intros H. apply andb_true_iff in H as [Hc Hs].
  now rewrite Hc, (IH Hs).
Qed.

(** *** strip *)

Lemma lstrip_all (chars s : string) :
  Py.all_chars (fun c => Py.mem c chars) s = true -> Py.lstrip chars s = "".
Proof.
  induction s as [|c s IH]; simpl; [reflexivity |].
  intros H. apply andb_true_iff in H as [Hc Hs]. now rewrite Hc, IH.
Qed.

(** The text [lstrip] drops is made of [chars], and what it keeps does not
    begin with one. *)
Lemma lstrip_spec (chars s : string) :
  exists pre,
    s = pre ++ Py.lstrip chars s
    /\ Py.all_chars (fun c => Py.mem c chars) pre = true
    /\ Py.begins_in chars (Py.lstrip chars s) = false.
Proof.
  induction s as [|c s (pre & E & Hpre & Hb)]; simpl.
  - now exists "".
  - destruct (Py.mem c chars) eqn:Hc.
    + exists (String c pre). simpl. rewrite Hc, Hpre, <- E. now split.
    + exists "". simpl. now rewrite Hc.
Qed.

Lemma rstrip_spec (chars s : string) :
  exists post,
    s = Py.rstrip chars s ++ post
    /\ Py.all_chars (fun c => Py.mem c chars) post = true
    /\ Py.ends_in chars (Py.rstrip chars s) = false.
Proof.
  induction s as [|c s (post & E & Hpost & He)]; simpl.
  - now exists "".
  - destruct (Py.rstrip chars s) as [|d kept] eqn:Hr.
    + destruct (Py.mem c chars) eqn:Hc.
      * exists (String c post). simpl in *. rewrite Hc, Hpost.
        repeat split; congruence.
      * exists post. simpl in *. rewrite Hc. repeat split; congruence.
    + exists post. simpl in *. repeat split; congruence.
Qed.

Lemma rstrip_begins (chars s : string) :
  Py.begins_in chars s = false -> Py.begins_in chars (Py.rstrip chars s) = false.
Proof.
  destruct s as [|c s]; simpl; [reflexivity |].
  intros Hc.
  destruct (Py.rstrip chars s); [rewrite Hc |]; simpl; auto.
Qed.

(** [strip] cuts a run of [chars] from each end and nothing else. *)
Lemma strip_spec (chars s : string) :
  exists pre post,
    s = pre ++ Py.strip chars s ++ post
    /\ Py.all_chars (fun c => Py.mem c chars) pre = true
    /\ Py.all_chars (fun c => Py.mem c chars) post = true
    /\ Py.begins_in chars (Py.strip chars s) = false
    /\ Py.ends_in chars (Py.strip chars s) = false.
Proof.
  unfold Py.strip.
  destruct (lstrip_spec chars s) as (pre & E1 & Hpre & Hb).
  destruct (rstrip_spec chars (Py.lstrip chars s)) as (post & E2 & Hpost & He).
  exists pre, post. repeat split; auto.
  - now rewrite <- E2.
  - now apply rstrip_begins.
Qed.

Lemma strip_all (chars s : string) :
  Py.all_chars (fun c => Py.mem c chars) s = true -> Py.strip chars s = "".
Proof.
  intros H. unfold Py.strip. now rewrite (lstrip_all _ _ H).
Qed.

Lemma rstrip_snoc (chars s : string) (p : ascii) :
  Py.mem p chars = true ->
  Py.rstrip chars (s ++ String p "") = Py.rstrip chars s.
Proof.
  intros Hp. induction s as [|c s IH]; simpl.
  - now rewrite Hp.
  - now rewrite IH.
Qed.

Lemma lstrip_snoc (chars s : string) (p : ascii) :
  Py.mem p chars = true ->
  Py.lstrip chars (s ++ String p "")
  = if Py.all_chars (fun c => Py.mem c chars) s then ""
    else Py.lstrip chars s ++ String p "".
Proof.
  intros Hp. induction s as [|c s IH]; simpl.
  - now rewrite Hp.
  - destruct (Py.mem c chars); simpl; [exact IH | reflexivity].
Qed.

(** One more of [chars] at the right end changes nothing. *)
Lemma strip_snoc_any (chars s : string) (p : ascii) :
  Py.mem p chars = true ->
  Py.strip chars (s ++ String p "") = Py.strip chars s.
Proof.
  intros Hp. unfold Py.strip. rewrite (lstrip_snoc _ _ _ Hp).
  destruct (Py.all_chars (fun c => Py.mem c chars) s) eqn:Hall.
  - now rewrite (lstrip_all _ _ Hall).
  - now apply rstrip_snoc.
Qed.

(** ** The search key *)

Lemma wiki_name_two (name last first : string) (rest : list string) :
  Py.split name = last :: first :: rest ->
  wiki_name name = Ok (first ++ " " ++ Py.strip Py.punctuation last).
Proof.
  intros H. unfold wiki_name. now rewrite H.
Qed.

Lemma wiki_name_one (name token : string) :
  Py.split name = [token] ->
  wiki_name name = Ok (Py.strip Py.punctuation token).
Proof.
  intros H. unfold wiki_name. now rewrite H.
Qed.

Lemma wiki_name_none (name : string) :
  Py.split name = [] -> wiki_name name = Raise IndexError.
Proof.
  intros H. unfold wiki_name. now rewrite H.
Qed.

Lemma split_last_comma_first (last first : string) :
  Py.no_space last = true -> Py.no_space first = true -> first <> "" ->
  Py.split (last ++ ", " ++ first) = [last ++ ","; first].
Proof.
  intros Hl Hf Hne.
  change (last ++ ", " ++ first) with (last ++ "," ++ String " " first).
  rewrite <- append_assoc.
  rewrite split_word_then_space.
  - rewrite (split_word _ Hf), (emit_nonempty first) by assumption.
    apply emit_nonempty. destruct last; discriminate.
  - unfold Py.no_space in *. now rewrite all_chars_app, Hl.
  - reflexivity.
Qed.

(** C3. A display name with at least two tokens gives the key
    "<token 1> <token 0 stripped>", where stripping removes a run of
    punctuation characters from each end of token 0 and nothing else.  So
    a name written "Last, First", with [Last] and [First] single words,
    splits into the two tokens "Last," and "First" and gives "First"
    followed by the stripped [Last]: the key "First Last" when [Last] has
    no punctuation at its ends. *)
Theorem wiki_name_last_first :
  (forall (name last first : string) (rest : list string),
      Py.split name = last :: first :: rest ->
      wiki_name name = Ok (first ++ " " ++ Py.strip Py.punctuation last)
      /\ exists pre post,
           last = pre ++ Py.strip Py.punctuation last ++ post
           /\ Py.all_chars (fun c => Py.mem c Py.punctuation) pre = true
           /\ Py.all_chars (fun c => Py.mem c Py.punctuation) post = true
           /\ Py.begins_in Py.punctuation (Py.strip Py.punctuation last) = false
           /\ Py.ends_in Py.punctuation (Py.strip Py.punctuation last) = false)
  /\ (forall last first : string,
         Py.no_space last = true -> Py.no_space first = true -> first <> "" ->
         Py.split (last ++ ", " ++ first) = [last ++ ","; first]
         /\ wiki_name (last ++ ", " ++ first)
            = Ok (first ++ " " ++ Py.strip Py.punctuation last)
         /\ (Py.strip Py.punctuation last = last ->
             wiki_name (last ++ ", " ++ first) = Ok (first ++ " " ++ last))).
Proof.
  split.
  - intros name last first rest H. split.
    + now apply wiki_name_two with (rest := rest).
    + apply strip_spec.
  - intros last first Hl Hf Hne.
    pose proof (split_last_comma_first _ _ Hl Hf Hne) as E.
    pose proof (wiki_name_two _ _ _ _ E) as K.
    rewrite (strip_snoc_any Py.punctuation last "," eq_refl) in K.
    repeat split; [exact E | exact K |].
    intros Hs. now rewrite K, Hs.
Qed.

Lemma wiki_name_last_first_witness :
  wiki_name "O'Keeffe,  Georgia (attributed)" = Ok "Georgia O'Keeffe"
  /\ wiki_name "Picasso, Pablo" = Ok "Pablo Picasso".
Proof.
  split.
  - apply (proj1 wiki_name_last_first
             "O'Keeffe,  Georgia (attributed)" "O'Keeffe," "Georgia"
             ["(attributed)"]).
    reflexivity.
  - apply (proj2 wiki_name_last_first "Picasso" "Pablo");
      [reflexivity | reflexivity | discriminate | reflexivity].
Defined.

(** C4. A display name with exactly one token gives that token with the
    punctuation at its two ends removed: the token is the key between two
    runs of punctuation characters, and the key neither begins nor ends
    with one. *)
Theorem wiki_name_single_token (name token : string) :
  Py.split name = [token] ->
  wiki_name name = Ok (Py.strip Py.punctuation token)
  /\ exists pre post,
       token = pre ++ Py.strip Py.punctuation token ++ post
       /\ Py.all_chars (fun c => Py.mem c Py.punctuation) pre = true
       /\ Py.all_chars (fun c => Py.mem c Py.punctuation) post = true
       /\ Py.begins_in Py.punctuation (Py.strip Py.punctuation token) = false
       /\ Py.ends_in Py.punctuation (Py.strip Py.punctuation token) = false.
Proof.
  intros H. split.
  - now apply wiki_name_one.
  - apply strip_spec.
Qed.

Lemma wiki_name_single_token_witness :
  wiki_name " (Michel-Ange), " = Ok "Michel-Ange".
Proof.
  apply (wiki_name_single_token " (Michel-Ange), " "(Michel-Ange),").
  reflexivity.
Defined.

(** C9. With three tokens or more the key is "<token 1> <token 0
    stripped>": it is the same for any two names that agree on their first
    two tokens, whatever follows them.  "Gogh, Vincent van" gives
    "Vincent Gogh", in which "van" does not occur. *)
Theorem wiki_name_ignores_later_tokens :
  (forall (name t0 t1 t2 : string) (rest : list string),
      Py.split name = t0 :: t1 :: t2 :: rest ->
      wiki_name name = Ok (t1 ++ " " ++ Py.strip Py.punctuation t0))
  /\ (forall (name name' t0 t1 : string) (rest rest' : list string),
         Py.split name = t0 :: t1 :: rest ->
         Py.split name' = t0 :: t1 :: rest' ->
         wiki_name name = wiki_name name')
  /\ wiki_name "Gogh, Vincent van" = Ok "Vincent Gogh"
  /\ String.index 0 "van" "Vincent Gogh" = None.
Proof.
  split; [| split; [| split; reflexivity]].
  - intros name t0 t1 t2 rest H. now apply wiki_name_two with (rest := t2 :: rest).
  - intros name name' t0 t1 rest rest' H H'.
    now rewrite (wiki_name_two _ _ _ _ H), (wiki_name_two _ _ _ _ H').
Qed.

Lemma wiki_name_ignores_later_tokens_witness :
  wiki_name "Gogh, Vincent van" = Ok ("Vincent" ++ " " ++ Py.strip Py.punctuation "Gogh,")
  /\ wiki_name "Gogh, Vincent van" = wiki_name "Gogh, Vincent Willem van".
Proof.
  split.
  - apply (proj1 wiki_name_ignores_later_tokens
             "Gogh, Vincent van" "Gogh," "Vincent" "van" []).
    reflexivity.
  - apply (proj1 (proj2 wiki_name_ignores_later_tokens)
             "Gogh, Vincent van" "Gogh, Vincent Willem van" "Gogh," "Vincent"
             ["van"] ["Willem"; "van"]); reflexivity.
Defined.

(** C5, as the code has it. A display name that is empty or blank has no
    token and raises IndexError; a display name made of punctuation
    characters only is one token, and gives the empty key without any
    error. *)
Theorem wiki_name_degenerate :
  (forall name : string,
      Py.all_chars Py.isspace name = true -> wiki_name name = Raise IndexError)
  /\ (forall name : string,
         name <> "" ->
         Py.all_chars (fun c => Py.mem c Py.punctuation) name = true ->
         wiki_name name = Ok "").
Proof.
  split.
  - intros name H. apply wiki_name_none. now apply split_blank.
  - intros name Hne H.
    rewrite (wiki_name_one name name).
    + now rewrite strip_all.
    + rewrite split_word by now apply all_punctuation_no_space.
      now apply emit_nonempty.
Qed.

Lemma wiki_name_degenerate_witness :
  wiki_name "" = Raise IndexError /\ wiki_name "?!" = Ok "".
Proof.
  split.
  - apply (proj1 wiki_name_degenerate ""). reflexivity.
  - apply (proj2 wiki_name_degenerate "?!"); [discriminate | reflexivity].
Defined.

(** C5 as stated fails: "..." is made of punctuation only, and its key is
    the empty string, returned without an error. *)
Lemma wiki_name_punctuation_no_error :
  Py.all_chars (fun c => Py.mem c Py.punctuation) "..." = true
  /\ wiki_name "..." = Ok ""
  /\ forall e, wiki_name "..." <> Raise e.
Proof.
  repeat split; discriminate.
Qed.

(** ** check_if_artist *)

Lemma in_keywords_iff (w : string) :
  in_keywords w = true
  <-> w = "art" \/ w = "artist" \/ w = "sculptor" \/ w = "painter".
Proof.
  unfold in_keywords, keywords. simpl.
  rewrite !orb_true_iff, !String.eqb_eq. intuition congruence.
Qed.

Lemma scan_words_iff (words : list string) :
  scan_words words = true
  <-> exists word, In word words /\ in_keywords (Py.lower word) = true.
Proof.
  induction words as [|w words IH]; simpl.
  - split; [discriminate | intros (word & [] & _)].
  - destruct (in_keywords (Py.lower w)) eqn:Hw.
    + split; [intros _; exists w; auto | reflexivity].
    + rewrite IH. split.
      * intros (word & Hin & Hk). exists word; auto.
      * intros (word & [-> | Hin] & Hk); [congruence | exists word; auto].
Qed.

Lemma scan_categories_iff (cats : list string) :
  scan_categories cats = true
  <-> exists category, In category cats /\ scan_words (Py.split category) = true.
Proof.
  induction cats as [|c cats IH]; simpl.
  - split; [discriminate | intros (category & [] & _)].
  - destruct (scan_words (Py.split c)) eqn:Hc.
    + split; [intros _; exists c; auto | reflexivity].
    + rewrite IH. split.
      * intros (category & Hin & Hk). exists category; auto.
      * intros (category & [-> | Hin] & Hk); [congruence | exists category; auto].
Qed.

(** C6. [check_if_artist] answers true exactly when some token of some
    category, split on whitespace and lower-cased, is one of art, artist,
    sculptor, painter; with no category it answers false. *)
Theorem check_if_artist_iff :
  (forall page : WikipediaPage,
      check_if_artist page = true
      <-> exists category word,
            In category (categories page)
            /\ In word (Py.split category)
            /\ (Py.lower word = "art" \/ Py.lower word = "artist"
                \/ Py.lower word = "sculptor" \/ Py.lower word = "painter"))
  /\ (forall t s : string,
         check_if_artist {| title := t; categories := []; summary := s |} = false).
Proof.
  split; [| reflexivity].
  intros page. unfold check_if_artist. rewrite scan_categories_iff. split.
  - intros (category & Hin & Hw). apply scan_words_iff in Hw as (word & Hw & Hk).
    exists category, word. rewrite <- in_keywords_iff. auto.
  - intros (category & word & Hin & Hw & Hk). exists category. split; [exact Hin |].
    apply scan_words_iff. exists word. rewrite in_keywords_iff. auto.
Qed.

(** C10. Only the four keywords themselves match: the plural forms
    "painters" and "artists" are not keywords, and a page whose only
    category is "Spanish painters", or "American artists", is not taken
    for an artist's. *)
Theorem check_if_artist_plural_forms :
  forall t s : string,
    check_if_artist
      {| title := t; categories := ["Spanish painters"]; summary := s |} = false
    /\ check_if_artist
         {| title := t; categories := ["American artists"]; summary := s |} = false
    /\ in_keywords "painters" = false
    /\ in_keywords "artists" = false
    /\ keywords = ["art"; "artist"; "sculptor"; "painter"].
Proof.
  intros t s. repeat split.
Qed.

(** ** The summary *)

(** C1. After a successful lookup the result is the summary of the page
    when the title equals the key up to letter case or the page is
    classified as an artist's, and the fixed text when neither holds. *)
Theorem wiki_summary_found (key : string) (page : WikipediaPage) :
  let accepted :=
    Py.lower (title page) = Py.lower key \/ check_if_artist page = true in
  (accepted -> wiki_summary key (Ok page) = Ok (summary page))
  /\ (~ accepted ->
      wiki_summary key (Ok page)
      = Ok "No Wikipedia Entry Available for this artist").
Proof.
  simpl. unfold wiki_summary.
  destruct (String.eqb_spec (Py.lower (title page)) (Py.lower key)) as [E | N];
    simpl.
  - split; [reflexivity |]. intros N. exfalso. apply N. now left.
  - destruct (check_if_artist page); simpl.
    + split; [reflexivity |]. intros N'. exfalso. apply N'. now right.
    + split; [| reflexivity].
      intros [? | ?]; [contradiction | discriminate].
Qed.

Lemma wiki_summary_found_witness :
  wiki_summary "pablo picasso" (Ok picasso_page) = Ok "Pablo Picasso was..."
  /\ wiki_summary "Mercury"
       (Ok {| title := "Mercury (planet)";
              categories := ["Planets of the Solar System"];
              summary := "Mercury is the first planet from the Sun." |})
     = Ok "No Wikipedia Entry Available for this artist".
Proof.
  split.
  - apply (proj1 (wiki_summary_found "pablo picasso" picasso_page)).
    left. reflexivity.
  - apply (proj2 (wiki_summary_found "Mercury"
                    {| title := "Mercury (planet)";
                       categories := ["Planets of the Solar System"];
                       summary := "Mercury is the first planet from the Sun." |})).
    intros [H | H]; discriminate.
Defined.

(** C2, as the code has it. A failure raised as WikipediaException or one
    of its subclasses (a missing page, an ambiguous title, a redirect, a
    time-out reported by the service) gives the fixed text and is not
    raised further; an exception of any other class is raised to the
    caller. *)
Theorem wiki_summary_lookup_failure (key : string) :
  (forall e, isinstance_WikipediaException e = true ->
             wiki_summary key (Raise e)
             = Ok "No Wikipedia Entry Available for this artist")
  /\ (forall e, isinstance_WikipediaException e = false ->
                wiki_summary key (Raise e) = Raise e)
  /\ isinstance_WikipediaException PageError = true
  /\ isinstance_WikipediaException DisambiguationError = true
  /\ isinstance_WikipediaException HTTPTimeoutError = true.
Proof.
  unfold wiki_summary. repeat split; intros e H; now rewrite H.
Qed.

Lemma wiki_summary_lookup_failure_witness :
  wiki_summary "John Smith" (Raise DisambiguationError)
  = Ok "No Wikipedia Entry Available for this artist"
  /\ wiki_summary "John Smith" (Raise (OtherException "KeyError"))
     = Raise (OtherException "KeyError").
Proof.
  split.
  - apply (proj1 (wiki_summary_lookup_failure "John Smith")). reflexivity.
  - apply (proj1 (proj2 (wiki_summary_lookup_failure "John Smith"))). reflexivity.
Defined.

(** C2 as stated fails: a connection error of the HTTP library is not a
    WikipediaException, and leaves [wiki_summary] as an exception. *)
Lemma wiki_summary_connection_error :
  wiki_summary "Pablo Picasso"
    (Raise (OtherException "requests.exceptions.ConnectionError"))
  = Raise (OtherException "requests.exceptions.ConnectionError")
  /\ wiki_summary "Pablo Picasso"
       (Raise (OtherException "requests.exceptions.ConnectionError"))
     <> Ok "No Wikipedia Entry Available for this artist".
Proof.
  split; [reflexivity | discriminate].
Qed.

(** ** The rows written *)

Section Run.

Variable wikipedia_page : string -> result WikipediaPage.
Variable get_name_list : string -> result (list anchor).

(** One pass of the loop body appends the entry's row, or raises and
    leaves the file as it was. *)
Lemma write_entry_run (name : anchor) (file : csv) :
  write_entry wikipedia_page name file
  = match row_of wikipedia_page name with
    | Ok r => (Ok tt, (file ++ [r])%list)
    | Raise e => (Raise e, file)
    end.
Proof.
  unfold write_entry, row_of, bind, lift, writerow, rbind.
  destruct (wiki_name (contents0 name)) as [key | e]; [| reflexivity].
  destruct (wiki_summary key (wikipedia_page key)); reflexivity.
Qed.

Lemma write_data_cons (name : anchor) (rest : list anchor) (file : csv) :
  write_data wikipedia_page (name :: rest) file
  = match row_of wikipedia_page name with
    | Ok r => write_data wikipedia_page rest (file ++ [r])%list
    | Raise e => (Raise e, file)
    end.
Proof.
  unfold write_data. simpl. unfold bind at 1. rewrite write_entry_run.
  now destruct (row_of wikipedia_page name).
Qed.

(** The rows [write_data] appends are the rows of the first [n] entries, in
    order; [n] is the number of entries when it returns, and the position
    of the entry that raised otherwise. *)
Lemma write_data_run (name_list : list anchor) (file : csv) :
  exists (n : nat) (rows : list row),
    snd (write_data wikipedia_page name_list file) = (file ++ rows)%list
    /\ Forall2 (fun name r => row_of wikipedia_page name = Ok r)
         (firstn n name_list) rows
    /\ match fst (write_data wikipedia_page name_list file) with
       | Ok _ => n = List.length name_list
       | Raise e =>
           exists name, nth_error name_list n = Some name
                        /\ row_of wikipedia_page name = Raise e
       end.
Proof.
  revert file. induction name_list as [|name rest IH]; intros file.
  - exists 0, []. simpl. rewrite app_nil_r. repeat split. constructor.
  - rewrite write_data_cons.
    destruct (row_of wikipedia_page name) as [r | e] eqn:Hrow.
    + destruct (IH (file ++ [r])%list) as (n & rows & Hsnd & Hrows & Hfst).
      exists (S n), (r :: rows).
      rewrite Hsnd, <- app_assoc. simpl. repeat split.
      * now constructor.
      * revert Hfst.
        destruct (fst (write_data wikipedia_page rest (file ++ [r])%list));
          [now intros -> | trivial].
    + exists 0, []. simpl. rewrite app_nil_r. repeat split.
      * constructor.
      * now exists name.
Qed.

(** An entry with a token in its display name, and whose lookup raises
    nothing but a WikipediaException, has a row. *)
Lemma row_of_ok (name : anchor) :
  Py.split (contents0 name) <> [] ->
  (forall key e, wiki_name (contents0 name) = Ok key ->
                 wikipedia_page key = Raise e ->
                 isinstance_WikipediaException e = true) ->
  exists r, row_of wikipedia_page name = Ok r.
Proof.
  intros Htok Hexc. unfold row_of.
  assert (exists key, wiki_name (contents0 name) = Ok key) as (key & Hkey).
  { destruct (Py.split (contents0 name)) as [|t0 [|t1 rest]] eqn:E.
    - congruence.
    - eexists. exact (wiki_name_one _ _ E).
    - eexists. exact (wiki_name_two _ _ _ _ E). }
  rewrite Hkey. simpl. specialize (Hexc key).
  unfold wiki_summary.
  destruct (wikipedia_page key) as [page | e].
  - destruct (_ || _); simpl; eauto.
  - rewrite (Hexc e Hkey eq_refl). simpl. eauto.
Qed.

(** A row is the display name, the prefixed link and the summary chosen
    for the entry's key. *)
Lemma row_of_shape (name : anchor) (r : row) :
  row_of wikipedia_page name = Ok r ->
  exists key text,
    wiki_name (contents0 name) = Ok key
    /\ wiki_summary key (wikipedia_page key) = Ok text
    /\ r = [contents0 name; "https://web.archive.org" ++ href name; text].
Proof.
  unfold row_of, rbind.
  destruct (wiki_name (contents0 name)) as [key | e]; [| discriminate].
  destruct (wiki_summary key (wikipedia_page key)) as [text | e] eqn:Ht;
    [| discriminate].
  intros E. injection E as <-. now exists key, text.
Qed.

(** A loop whose every pass only appends rows satisfying [Q] only appends
    rows satisfying [Q]. *)
Lemma for_each_appends {X : Type} (Q : row -> Prop) (body : X -> io unit)
      (xs : list X) :
  (forall x file, In x xs ->
     exists rows, snd (body x file) = (file ++ rows)%list /\ Forall Q rows) ->
  forall file,
    exists rows, snd (for_each xs body file) = (file ++ rows)%list /\ Forall Q rows.
Proof.
  induction xs as [|x xs IH]; intros Hbody file; simpl.
  - exists []. now rewrite app_nil_r.
  - unfold bind.
    destruct (Hbody x file (or_introl eq_refl)) as (rows1 & E1 & Q1).
    destruct (body x file) as [[[] | e] file1]; simpl in E1; subst file1.
    + destruct (IH (fun y f Hy => Hbody y f (or_intror Hy)) (file ++ rows1)%list)
        as (rows2 & E2 & Q2).
      exists (rows1 ++ rows2)%list. rewrite E2, app_assoc. split; [reflexivity |].
      apply Forall_app. now split.
    + exists rows1. now split.
Qed.

Lemma write_data_appends (name_list : list anchor) (file : csv) :
  exists rows,
    snd (write_data wikipedia_page name_list file) = (file ++ rows)%list
    /\ Forall (fun r => exists name,
                   In name name_list /\ row_of wikipedia_page name = Ok r) rows.
Proof.
  apply for_each_appends. intros name f Hin. rewrite write_entry_run.
  destruct (row_of wikipedia_page name) as [r | e] eqn:Hr; simpl.
  - exists [r]. split; [reflexivity |]. constructor; [| constructor].
    now exists name.
  - exists []. now rewrite app_nil_r.
Qed.

End Run.

(** C7, as the code has it. [write_data] appends the rows of the entries in
    input order, one row for each, up to the first entry that raises: when
    it returns, every entry has its row; when it raises, the entries
    before the one that raised have theirs and no other row is written.
    It returns, with one row per entry, whenever every display name has a
    token and no lookup raises anything but a WikipediaException. *)
Theorem write_data_rows :
  forall (wikipedia_page : string -> result WikipediaPage)
         (name_list : list anchor) (file : csv),
    (exists (n : nat) (rows : list row),
        snd (write_data wikipedia_page name_list file) = (file ++ rows)%list
        /\ Forall2 (is_row_of wikipedia_page) (firstn n name_list) rows
        /\ List.length rows = n
        /\ n <= List.length name_list
        /\ match fst (write_data wikipedia_page name_list file) with
           | Ok _ => n = List.length name_list
           | Raise e =>
               exists name,
                 nth_error name_list n = Some name
                 /\ row_of wikipedia_page name = Raise e
           end)
    /\ ((forall name, In name name_list -> passable wikipedia_page name) ->
        exists rows,
          write_data wikipedia_page name_list file = (Ok tt, (file ++ rows)%list)
          /\ Forall2 (is_row_of wikipedia_page) name_list rows
          /\ List.length rows = List.length name_list).
Proof.
  intros wikipedia_page name_list file.
  destruct (write_data_run wikipedia_page name_list file)
    as (n & rows & Hsnd & Hrows & Hfst).
  assert (Forall2 (is_row_of wikipedia_page) (firstn n name_list) rows) as Hshape.
  { eapply Forall2_impl; [| exact Hrows].
    intros name r. apply row_of_shape. }
  assert (n <= List.length name_list) as Hn.
  { destruct (fst (write_data wikipedia_page name_list file)).
    - lia.
    - destruct Hfst as (name & Hnth & _).
      apply Nat.lt_le_incl, nth_error_Some. congruence. }
  assert (List.length rows = n) as Hlen.
  { rewrite <- (Forall2_length Hrows), length_firstn. lia. }
  split.
  - exists n, rows. auto.
  - intros Hpass.
    destruct (fst (write_data wikipedia_page name_list file)) as [[] | e] eqn:Hres.
    + exists rows. subst n. rewrite firstn_all in Hshape.
      rewrite (surjective_pairing (write_data wikipedia_page name_list file)).
      rewrite Hres, Hsnd. auto.
    + destruct Hfst as (name & Hnth & Hraise).
      destruct (Hpass name (nth_error_In _ _ Hnth)) as [Htok Hexc].
      destruct (row_of_ok wikipedia_page name Htok Hexc) as (r & Hr).
      congruence.
Qed.

Lemma write_data_rows_witness :
  exists rows,
    write_data sample_lookup
      [ {| contents0 := "Picasso, Pablo"; href := "/a" |};
        {| contents0 := "Smith, John"; href := "/b" |} ]
      [ ["Name"; "Link"; "Wiki Summary"] ]
    = (Ok tt, ([ ["Name"; "Link"; "Wiki Summary"] ] ++ rows)%list)
    /\ Forall2 (is_row_of sample_lookup)
         [ {| contents0 := "Picasso, Pablo"; href := "/a" |};
           {| contents0 := "Smith, John"; href := "/b" |} ] rows
    /\ List.length rows = 2.
Proof.
  apply (proj2 (write_data_rows sample_lookup
                  [ {| contents0 := "Picasso, Pablo"; href := "/a" |};
                    {| contents0 := "Smith, John"; href := "/b" |} ]
                  [ ["Name"; "Link"; "Wiki Summary"] ])).
  intros name [<- | [<- | []]]; (split; [discriminate |]);
    intros key e Hkey; vm_compute in Hkey; injection Hkey as <-;
    vm_compute; intros He;
    first [discriminate He | injection He as <-; reflexivity].
Defined.

(** C7 as stated fails: a blank display name raises IndexError, and the
    run stops with no row written for either of the two entries. *)
Lemma write_data_blank_name :
  let name_list :=
    [ {| contents0 := " "; href := "/a" |};
      {| contents0 := "Picasso, Pablo"; href := "/b" |} ] in
  write_data sample_lookup name_list [] = (Raise IndexError, [])
  /\ List.length (snd (write_data sample_lookup name_list []))
     <> List.length name_list.
Proof.
  split; [reflexivity | discriminate].
Qed.

(** C8. Whatever the listings and the lookups answer, and whether [main]
    returns or raises, the file holds the row Name, Link, Wiki Summary
    first, and only there; every row after it is the row of an entry of
    one of the listings: its display name, its link after the prefix, and
    the summary chosen for its key. *)
Theorem main_header_then_rows :
  forall (wikipedia_page : string -> result WikipediaPage)
         (get_name_list : string -> result (list anchor)),
  exists data : list row,
    snd (main wikipedia_page get_name_list)
    = ["Name"; "Link"; "Wiki Summary"] :: data
    /\ ~ In ["Name"; "Link"; "Wiki Summary"] data
    /\ Forall (fun r =>
                 exists character name_list name,
                   In character (list_ascii_of_string Py.ascii_uppercase)
                   /\ get_name_list (artist_list_url character) = Ok name_list
                   /\ In name name_list
                   /\ is_row_of wikipedia_page name r) data.
Proof.
  intros wikipedia_page get_name_list. unfold main, bind at 1, writerow at 1.
  match goal with
  | |- context [for_each ?xs ?body _] =>
      destruct (for_each_appends
                  (fun r => exists character name_list name,
                       In character xs
                       /\ get_name_list (artist_list_url character) = Ok name_list
                       /\ In name name_list
                       /\ is_row_of wikipedia_page name r)
                  body xs) with (file := ([] ++ [header])%list)
        as (data & E & Hdata)
  end.
  - intros character file Hin. unfold bind, lift.
    destruct (get_name_list (artist_list_url character)) as [name_list | e] eqn:Hl.
    + destruct (write_data_appends wikipedia_page name_list file)
        as (rows & Hrows & Hall).
      exists rows. split; [exact Hrows |].
      eapply Forall_impl; [| exact Hall].
      intros r (name & Hname & Hr).
      exists character, name_list, name.
      repeat split; auto. now apply row_of_shape.
    + exists []. simpl. now rewrite app_nil_r.
  - exists data. rewrite E. repeat split; auto.
    intros Hin. rewrite Forall_forall in Hdata.
    destruct (Hdata _ Hin) as (_ & _ & name & _ & _ & _ & key & text & _ & _ & Hrow).
    discriminate Hrow.
Qed.

(** * Further properties of the program *)

(** ** More on split and strip *)

Lemma split_from_nil (s cur : string) :
  Py.split_from cur s = [] <-> cur = "" /\ Py.all_chars Py.isspace s = true.
Proof.
  revert cur. induction s as [|c s IH]; intros cur; simpl.
  - destruct cur; simpl; intuition congruence.
  - destruct (Py.isspace c) eqn:Hc; simpl.
    + destruct cur; simpl.
      * rewrite IH. intuition.
      * intuition congruence.
    + rewrite IH. split; [| intros [_ H]; discriminate].
      intros [H _]. destruct cur; discriminate.
Qed.

Lemma split_nil_iff (s : string) :
  Py.split s = [] <-> Py.all_chars Py.isspace s = true.
Proof.
  unfold Py.split. rewrite split_from_nil. intuition.
Qed.

(** Every token is non-empty and free of whitespace. *)
Lemma split_from_tokens (s cur : string) :
  Py.no_space cur = true ->
  Forall (fun t => Py.no_space t = true /\ t <> "") (Py.split_from cur s).
Proof.
  revert cur. induction s as [|c s IH]; intros cur Hcur; simpl.
  - destruct cur; simpl; repeat constructor; [exact Hcur | discriminate].
  - destruct (Py.isspace c) eqn:Hc.
    + destruct cur; simpl.
      * now apply IH.
      * constructor; [split; [exact Hcur | discriminate] | now apply IH].
    + apply IH. unfold Py.no_space in *.
      rewrite all_chars_app, Hcur. simpl. now rewrite Hc.
Qed.

Lemma split_tokens (s : string) :
  Forall (fun t => Py.no_space t = true /\ t <> "") (Py.split s).
Proof.
  now apply split_from_tokens.
Qed.

Lemma split_from_blank_suffix (s pad cur : string) :
  Py.all_chars Py.isspace pad = true ->
  Py.split_from cur (s ++ pad) = Py.split_from cur s.
Proof.
  intros Hpad. revert cur. induction s as [|c s IH]; intros cur; simpl.
  - destruct pad as [|p pad]; [reflexivity |].
    simpl in *. apply andb_true_iff in Hpad as [Hp Hrest]. rewrite Hp.
    now rewrite (proj2 (split_from_nil pad "") (conj eq_refl Hrest)).
  - now rewrite !IH.
Qed.

Lemma split_blank_prefix (pad s : string) :
  Py.all_chars Py.isspace pad = true -> Py.split (pad ++ s) = Py.split s.
Proof.
  unfold Py.split. induction pad as [|p pad IH]; simpl; [reflexivity |].
  intros H. apply andb_true_iff in H as [Hp Hrest]. rewrite Hp. now apply IH.
Qed.

(** What [strip] keeps is made of characters of the text. *)
Lemma strip_all_chars (p : ascii -> bool) (chars s : string) :
  Py.all_chars p s = true -> Py.all_chars p (Py.strip chars s) = true.
Proof.
  destruct (strip_spec chars s) as (pre & post & E & _).
  intros H. rewrite E, !all_chars_app in H.
  apply andb_true_iff in H as [_ H]. now apply andb_true_iff in H as [H _].
Qed.

Lemma strip_empty_all (chars s : string) :
  Py.strip chars s = "" -> Py.all_chars (fun c => Py.mem c chars) s = true.
Proof.
  destruct (strip_spec chars s) as (pre & post & E & Hpre & Hpost & _).
  intros H. rewrite H in E. rewrite E, all_chars_app, Hpre. exact Hpost.
Qed.

Lemma emit_length (cur : string) (tokens : list string) :
  List.length (Py.emit cur tokens) <= S (List.length tokens).
Proof.
  destruct cur; simpl; lia.
Qed.

(** ** More on the search key *)

(** X1. The key computation raises exactly on a display name without any
    non-blank character, and what it raises then is IndexError. *)
Theorem wiki_name_raises_iff_blank (name : string) (e : exception) :
  wiki_name name = Raise e
  <-> e = IndexError /\ Py.all_chars Py.isspace name = true.
Proof.
  rewrite <- split_nil_iff.
  destruct (Py.split name) as [|t0 [|t1 rest]] eqn:E.
  - rewrite (wiki_name_none _ E). intuition congruence.
  - rewrite (wiki_name_one _ _ E). intuition congruence.
  - rewrite (wiki_name_two _ _ _ _ E). intuition congruence.
Qed.

(** X2. The key is the empty string exactly when the display name is a
    single token made of punctuation characters only. *)
Theorem wiki_name_empty_key_iff (name : string) :
  wiki_name name = Ok ""
  <-> exists token,
        Py.split name = [token]
        /\ Py.all_chars (fun c => Py.mem c Py.punctuation) token = true.
Proof.
  split.
  - destruct (Py.split name) as [|t0 [|t1 rest]] eqn:E.
    + rewrite (wiki_name_none _ E). discriminate.
    + rewrite (wiki_name_one _ _ E). intros K. injection K as K.
      exists t0. split; [reflexivity | now apply strip_empty_all].
    + rewrite (wiki_name_two _ _ _ _ E). intros K. injection K as K.
      destruct t1; discriminate.
  - intros (token & E & Hall).
    rewrite (wiki_name_one _ _ E). now rewrite strip_all.
Qed.

(** X3. Blank characters before and after the display name do not change
    the key, nor whether one is computed. *)
Theorem wiki_name_ignores_padding (before name after : string) :
  Py.all_chars Py.isspace before = true ->
  Py.all_chars Py.isspace after = true ->
  wiki_name (before ++ name ++ after) = wiki_name name.
Proof.
  intros Hb Ha. unfold wiki_name.
  rewrite (split_blank_prefix _ _ Hb). unfold Py.split.
  now rewrite (split_from_blank_suffix _ _ _ Ha).
Qed.

Lemma wiki_name_ignores_padding_witness :
  wiki_name ("  " ++ "Picasso, Pablo" ++ " ") = wiki_name "Picasso, Pablo".
Proof.
  apply (wiki_name_ignores_padding "  " "Picasso, Pablo" " "); reflexivity.
Defined.

Lemma split_pair (a b : string) :
  Py.no_space a = true -> Py.no_space b = true -> a <> "" -> b <> "" ->
  Py.split (a ++ " " ++ b) = [a; b].
Proof.
  intros Ha Hb Na Nb.
  change (a ++ " " ++ b) with (a ++ String " " b).
  rewrite (split_word_then_space a " " b Ha eq_refl).
  rewrite (split_word _ Hb), (emit_nonempty b) by assumption.
  now apply emit_nonempty.
Qed.

(** X4. A display name of two words with no punctuation at their ends,
    separated by one space, gets the two words in the opposite order as its
    key: a name already written "First Last" is looked up as "Last First",
    and the key of that key is the name again. *)
Theorem wiki_name_swaps_two_words (a b : string) :
  Py.no_space a = true -> Py.no_space b = true -> a <> "" -> b <> "" ->
  Py.strip Py.punctuation a = a -> Py.strip Py.punctuation b = b ->
  wiki_name (a ++ " " ++ b) = Ok (b ++ " " ++ a)
  /\ rbind (wiki_name (a ++ " " ++ b)) wiki_name = Ok (a ++ " " ++ b).
Proof.
  intros Ha Hb Na Nb Sa Sb.
  assert (forall x y, Py.no_space x = true -> Py.no_space y = true ->
                      x <> "" -> y <> "" -> Py.strip Py.punctuation x = x ->
                      wiki_name (x ++ " " ++ y) = Ok (y ++ " " ++ x)) as K.
  { intros x y Hx Hy Nx Ny Sx.
    rewrite (wiki_name_two _ _ _ _ (split_pair x y Hx Hy Nx Ny)).
    now rewrite Sx. }
  split.
  - now apply K.
  - rewrite (K a b) by assumption. simpl. now apply K.
Qed.

Lemma wiki_name_swaps_two_words_witness :
  wiki_name ("Pablo" ++ " " ++ "Picasso") = Ok ("Picasso" ++ " " ++ "Pablo")
  /\ rbind (wiki_name ("Pablo" ++ " " ++ "Picasso")) wiki_name
     = Ok ("Pablo" ++ " " ++ "Picasso").
Proof.
  apply (wiki_name_swaps_two_words "Pablo" "Picasso");
    first [reflexivity | discriminate].
Defined.

(** X5. A key has at most two words, however many the display name has. *)
Theorem wiki_name_at_most_two_words (name key : string) :
  wiki_name name = Ok key -> List.length (Py.split key) <= 2.
Proof.
  pose proof (split_tokens name) as Htok.
  destruct (Py.split name) as [|t0 [|t1 rest]] eqn:E.
  - rewrite (wiki_name_none _ E). discriminate.
  - rewrite (wiki_name_one _ _ E). intros K. injection K as <-.
    inversion Htok as [|? ? [H0 _] _]; subst.
    rewrite split_word by now apply strip_all_chars.
    pose proof (emit_length (Py.strip Py.punctuation t0) []). simpl in *. lia.
  - rewrite (wiki_name_two _ _ _ _ E). intros K. injection K as <-.
    inversion Htok as [|? ? [H0 _] Htl]; subst.
    inversion Htl as [|? ? [H1 _] _]; subst.
    change (t1 ++ " " ++ Py.strip Py.punctuation t0)
      with (t1 ++ String " " (Py.strip Py.punctuation t0)).
    rewrite (split_word_then_space t1 " " _ H1 eq_refl).
    rewrite split_word by now apply strip_all_chars.
    pose proof (emit_length (Py.strip Py.punctuation t0) []).
    pose proof (emit_length t1 (Py.emit (Py.strip Py.punctuation t0) [])).
    simpl in *. lia.
Qed.

Lemma wiki_name_at_most_two_words_witness :
  List.length (Py.split "Vincent Gogh") <= 2.
Proof.
  apply (wiki_name_at_most_two_words "Gogh, Vincent Willem van" "Vincent Gogh").
  reflexivity.
Defined.

(** ** More on lower *)

Lemma lower_char_idempotent (c : ascii) :
  Py.lower_char (Py.lower_char c) = Py.lower_char c.
Proof.
  destruct c as [[] [] [] [] [] [] [] []]; reflexivity.
Qed.

Lemma lower_char_isspace (c : ascii) :
  Py.isspace (Py.lower_char c) = Py.isspace c.
Proof.
  destruct c as [[] [] [] [] [] [] [] []]; reflexivity.
Qed.

Lemma lower_idempotent (s : string) : Py.lower (Py.lower s) = Py.lower s.
Proof.
  induction s as [|c s IH]; simpl; [reflexivity |].
  now rewrite lower_char_idempotent, IH.
Qed.

Lemma lower_app (a b : string) : Py.lower (a ++ b) = Py.lower a ++ Py.lower b.
Proof.
  induction a as [|c a IH]; simpl; [reflexivity | now rewrite IH].
Qed.

Lemma emit_lower (cur : string) (tokens : list string) :
  Py.emit (Py.lower cur) (map Py.lower tokens) = map Py.lower (Py.emit cur tokens).
Proof.
  destruct cur; reflexivity.
Qed.

(** Lower-casing a text lower-cases its tokens and leaves their limits. *)
Lemma split_from_lower (s cur : string) :
  Py.split_from (Py.lower cur) (Py.lower s) = map Py.lower (Py.split_from cur s).
Proof.
  revert cur. induction s as [|c s IH]; intros cur; simpl.
  - apply (emit_lower cur []).
  - rewrite lower_char_isspace. destruct (Py.isspace c).
    + rewrite <- emit_lower. f_equal. apply (IH "").
    + rewrite <- IH, lower_app. reflexivity.
Qed.

Lemma split_lower (s : string) :
  Py.split (Py.lower s) = map Py.lower (Py.split s).
Proof.
  apply (split_from_lower s "").
Qed.

(** ** More on check_if_artist *)

Lemma scan_words_lower (words : list string) :
  scan_words (map Py.lower words) = scan_words words.
Proof.
  induction words as [|w words IH]; simpl; [reflexivity |].
  now rewrite lower_idempotent, IH.
Qed.

Lemma scan_categories_lower (cats : list string) :
  scan_categories (map Py.lower cats) = scan_categories cats.
Proof.
  induction cats as [|c cats IH]; simpl; [reflexivity |].
  now rewrite split_lower, scan_words_lower, IH.
Qed.

Lemma scan_categories_incl (cats cats' : list string) :
  incl cats cats' ->
  scan_categories cats = true -> scan_categories cats' = true.
Proof.
  intros Hincl H. apply scan_categories_iff in H as (c & Hin & Hc).
  apply scan_categories_iff. exists c. split; [now apply Hincl | exact Hc].
Qed.

(** X6. The answer of [check_if_artist] depends on the set of categories
    only: a page that has every category of an artist's page is an
    artist's page, so two pages with the same categories, in any order and
    with any repetition, get the same answer. *)
Theorem check_if_artist_set_of_categories (p q : WikipediaPage) :
  (incl (categories p) (categories q) ->
   check_if_artist p = true -> check_if_artist q = true)
  /\ (incl (categories p) (categories q) ->
      incl (categories q) (categories p) ->
      check_if_artist p = check_if_artist q).
Proof.
  unfold check_if_artist. split.
  - apply scan_categories_incl.
  - intros Hpq Hqp.
    destruct (scan_categories (categories p)) eqn:Hp.
    + symmetry. now apply (scan_categories_incl _ _ Hpq).
    + destruct (scan_categories (categories q)) eqn:Hq; [| reflexivity].
      rewrite (scan_categories_incl _ _ Hqp Hq) in Hp. discriminate.
Qed.

Lemma check_if_artist_set_of_categories_witness :
  check_if_artist
    {| title := "A"; categories := ["Cubist Painter"; "1881 births"];
       summary := "" |}
  = check_if_artist
      {| title := "B";
         categories := ["1881 births"; "Cubist Painter"; "1881 births"];
         summary := "" |}.
Proof.
  apply (proj2 (check_if_artist_set_of_categories
                  {| title := "A"; categories := ["Cubist Painter"; "1881 births"];
                     summary := "" |}
                  {| title := "B";
                     categories := ["1881 births"; "Cubist Painter"; "1881 births"];
                     summary := "" |}));
    intros c; simpl; tauto.
Defined.

(** X7. The letter case of the categories does not matter: two pages whose
    categories are the same once lower-cased get the same answer. *)
Theorem check_if_artist_ignores_case (p q : WikipediaPage) :
  map Py.lower (categories p) = map Py.lower (categories q) ->
  check_if_artist p = check_if_artist q.
Proof.
  intros H. unfold check_if_artist.
  rewrite <- (scan_categories_lower (categories p)), H.
  apply scan_categories_lower.
Qed.

Lemma check_if_artist_ignores_case_witness :
  check_if_artist
    {| title := "A"; categories := ["FRENCH SCULPTOR"]; summary := "" |}
  = check_if_artist
      {| title := "A"; categories := ["French Sculptor"]; summary := "" |}.
Proof.
  apply (check_if_artist_ignores_case
           {| title := "A"; categories := ["FRENCH SCULPTOR"]; summary := "" |}
           {| title := "A"; categories := ["French Sculptor"]; summary := "" |}).
  reflexivity.
Defined.

(** ** More on the summary *)

(** X9. The letter case of the key and of the page title does not matter
    for the summary chosen. *)
Theorem wiki_summary_ignores_case (key : string) (page : WikipediaPage) :
  wiki_summary (Py.lower key) (Ok page) = wiki_summary key (Ok page)
  /\ wiki_summary key
       (Ok {| title := Py.lower (title page);
              categories := categories page;
              summary := summary page |})
     = wiki_summary key (Ok page).
Proof.
  unfold wiki_summary, check_if_artist. simpl.
  now rewrite !lower_idempotent.
Qed.

(** ** More on the rows written *)

Section Rows.

Variable wikipedia_page : string -> result WikipediaPage.
Variable get_name_list : string -> result (list anchor).

Lemma for_each_app {X : Type} (xs ys : list X) (body : X -> io unit)
      (file : csv) :
  for_each (xs ++ ys) body file
  = (for_each xs body ;;; for_each ys body) file.
Proof.
  revert file. induction xs as [|x xs IH]; intros file; simpl.
  - reflexivity.
  - unfold bind in *. destruct (body x file) as [[[] | e] file1].
    + apply IH.
    + reflexivity.
Qed.

Lemma write_data_app (l1 l2 : list anchor) (file : csv) :
  write_data wikipedia_page (l1 ++ l2) file
  = (write_data wikipedia_page l1 ;;; write_data wikipedia_page l2) file.
Proof.
  apply for_each_app.
Qed.

Lemma write_data_passable (name_list : list anchor) (file : csv) :
  (forall name, In name name_list -> passable wikipedia_page name) ->
  exists rows,
    write_data wikipedia_page name_list file = (Ok tt, (file ++ rows)%list)
    /\ Forall2 (is_row_of wikipedia_page) name_list rows.
Proof.
  revert file. induction name_list as [|name rest IH]; intros file Hpass.
  - exists []. rewrite app_nil_r. split; [reflexivity | constructor].
  - rewrite write_data_cons.
    destruct (Hpass name (or_introl eq_refl)) as [Htok Hexc].
    destruct (row_of_ok wikipedia_page name Htok Hexc) as (r & Hr).
    rewrite Hr.
    destruct (IH (file ++ [r])%list (fun n Hn => Hpass n (or_intror Hn)))
      as (rows & E & Hrows).
    exists (r :: rows). rewrite E, <- app_assoc. split; [reflexivity |].
    constructor; [now apply row_of_shape | exact Hrows].
Qed.

Lemma main_unfold :
  main wikipedia_page get_name_list
  = for_each (list_ascii_of_string Py.ascii_uppercase) (write_page wikipedia_page get_name_list) [header].
Proof.
  reflexivity.
Qed.

(** While the pages can be read, the passes over the letters amount to one
    [write_data] over the listings put end to end. *)
Lemma pages_as_one (characters : list ascii) (file : csv) :
  (forall c, In c characters ->
             exists name_list, get_name_list (artist_list_url c) = Ok name_list) ->
  for_each characters (write_page wikipedia_page get_name_list) file
  = write_data wikipedia_page (flat_map (listed get_name_list) characters) file.
Proof.
  revert file. induction characters as [|c cs IH]; intros file Hread.
  - reflexivity.
  - simpl. rewrite write_data_app.
    destruct (Hread c (or_introl eq_refl)) as (name_list & Hc).
    unfold write_page at 1, listed at 1. rewrite Hc.
    unfold bind, lift.
    destruct (write_data wikipedia_page name_list file) as [[[] | e] file1].
    + apply IH. intros c' Hc'. apply Hread. now right.
    + reflexivity.
Qed.

(** X10. What [write_data] does is independent of the rows already in the
    file: it leaves them in place, and appends after them the rows it
    would write to an empty file, with the same outcome. *)
Theorem write_data_frame (name_list : list anchor) (file : csv) :
  write_data wikipedia_page name_list file
  = (fst (write_data wikipedia_page name_list []),
     (file ++ snd (write_data wikipedia_page name_list []))%list).
Proof.
  revert file. induction name_list as [|name rest IH]; intros file.
  - simpl. now rewrite app_nil_r.
  - rewrite !write_data_cons.
    destruct (row_of wikipedia_page name) as [r | e].
    + rewrite (IH (file ++ [r])%list), (IH ([] ++ [r])%list). simpl.
      now rewrite <- app_assoc.
    + simpl. now rewrite app_nil_r.
Qed.

(** X11. As long as every listing page is read, [main] is one [write_data]
    over the 26 listings put end to end, A to Z, on the file holding the
    header: the rows are in the order of the letters, then of each listing,
    and an entry that raises ends the whole run, not only its page. *)
Theorem main_as_one_write_data :
  (forall c, In c (list_ascii_of_string Py.ascii_uppercase) ->
             exists name_list, get_name_list (artist_list_url c) = Ok name_list) ->
  main wikipedia_page get_name_list
  = write_data wikipedia_page
      (flat_map (listed get_name_list) (list_ascii_of_string Py.ascii_uppercase))
      [ ["Name"; "Link"; "Wiki Summary"] ].
Proof.
  intros Hread. rewrite main_unfold. now apply pages_as_one.
Qed.

(** X13. Every row of the file [main] leaves, the header and each data row,
    has exactly three columns, whether [main] returns or raises. *)
Theorem main_rows_have_three_columns :
  Forall (fun r : row => List.length r = 3)
         (snd (main wikipedia_page get_name_list)).
Proof.
  rewrite main_unfold.
  destruct (for_each_appends (fun r : row => List.length r = 3) (write_page wikipedia_page get_name_list)
              (list_ascii_of_string Py.ascii_uppercase)) with (file := [header])
    as (data & E & Hdata).
  - intros character file _. unfold write_page, bind, lift.
    destruct (get_name_list (artist_list_url character)) as [name_list | e].
    + destruct (write_data_appends wikipedia_page name_list file)
        as (rows & Hrows & Hall).
      exists rows. split; [exact Hrows |].
      eapply Forall_impl; [| exact Hall].
      intros r (name & _ & Hr).
      apply row_of_shape in Hr as (key & text & _ & _ & ->). reflexivity.
    + exists []. simpl. now rewrite app_nil_r.
  - rewrite E. apply Forall_app. split; [| exact Hdata].
    constructor; [reflexivity | constructor].
Qed.

(** X14. When every listing page is read, every display name has a token and
    no lookup raises anything but a WikipediaException, [main] returns and
    the file is the header followed by one row per listed entry, in the
    order of the letters and of each listing. *)
Theorem main_complete_run :
  (forall c, In c (list_ascii_of_string Py.ascii_uppercase) ->
             exists name_list,
               get_name_list (artist_list_url c) = Ok name_list
               /\ forall name, In name name_list -> passable wikipedia_page name) ->
  exists rows,
    main wikipedia_page get_name_list
    = (Ok tt, ["Name"; "Link"; "Wiki Summary"] :: rows)
    /\ Forall2 (is_row_of wikipedia_page)
         (flat_map (listed get_name_list)
                   (list_ascii_of_string Py.ascii_uppercase)) rows
    /\ List.length rows
       = List.length (flat_map (listed get_name_list)
                               (list_ascii_of_string Py.ascii_uppercase)).
Proof.
  intros Hall. rewrite main_unfold, pages_as_one.
  - destruct (write_data_passable
                (flat_map (listed get_name_list)
                          (list_ascii_of_string Py.ascii_uppercase)) [header])
      as (rows & E & Hrows).
    + intros name Hin. apply in_flat_map in Hin as (c & Hc & Hname).
      destruct (Hall c Hc) as (name_list & Hl & Hpass).
      unfold listed in Hname. rewrite Hl in Hname. now apply Hpass.
    + exists rows. rewrite E. repeat split; [exact Hrows |].
      symmetry. exact (Forall2_length Hrows).
  - intros c Hc. destruct (Hall c Hc) as (name_list & Hl & _). now exists name_list.
Qed.

(** X15. When the listing page of a letter cannot be read, the rows in the
    file are those written for the letters before it, and no later letter
    adds any; [main] raises the exception of that page if the entries
    before it were written without one. *)
Theorem main_stops_at_unread_page (before after : list ascii)
        (character : ascii) (e : exception) :
  list_ascii_of_string Py.ascii_uppercase = (before ++ character :: after)%list ->
  (forall c, In c before ->
             exists name_list, get_name_list (artist_list_url c) = Ok name_list) ->
  get_name_list (artist_list_url character) = Raise e ->
  snd (main wikipedia_page get_name_list)
  = snd (write_data wikipedia_page (flat_map (listed get_name_list) before)
           [ ["Name"; "Link"; "Wiki Summary"] ])
  /\ (fst (write_data wikipedia_page (flat_map (listed get_name_list) before)
             [ ["Name"; "Link"; "Wiki Summary"] ]) = Ok tt ->
      fst (main wikipedia_page get_name_list) = Raise e).
Proof.
  intros Hletters Hread Hfail. fold header.
  assert (main wikipedia_page get_name_list
          = match write_data wikipedia_page
                    (flat_map (listed get_name_list) before) [header] with
            | (Ok _, file1) => (Raise e, file1)
            | (Raise e', file1) => (Raise e', file1)
            end) as E.
  { rewrite main_unfold, Hletters, for_each_app.
    unfold bind at 1. rewrite (pages_as_one before [header] Hread).
    destruct (write_data wikipedia_page (flat_map (listed get_name_list) before)
                [header]) as [[[] | e'] file1]; [| reflexivity].
    simpl. unfold bind at 1. unfold write_page at 1. unfold bind at 1, lift.
    now rewrite Hfail. }
  rewrite E. unfold row.
  match goal with
  | |- context [write_data ?w ?l ?f] =>
      destruct (write_data w l f) as [[[] | e'] file1]; simpl
  end.
  - now split.
  - split; [reflexivity | discriminate].
Qed.

(** X16. When the lookup of every key raises a WikipediaException and every
    display name has a token, [write_data] returns and the rows it appends
    are, entry by entry, the display name, the prefixed link and the fixed
    text. *)
Theorem write_data_nothing_found (name_list : list anchor) (file : csv) :
  (forall key, exists e,
      wikipedia_page key = Raise e /\ isinstance_WikipediaException e = true) ->
  (forall name, In name name_list -> Py.split (contents0 name) <> []) ->
  write_data wikipedia_page name_list file
  = (Ok tt,
     app file
         (map (fun name =>
                 [contents0 name;
                  "https://web.archive.org" ++ href name;
                  "No Wikipedia Entry Available for this artist"])
              name_list)).
Proof.
  intros Hnone. revert file.
  induction name_list as [|name rest IH]; intros file Htok.
  - simpl. now rewrite app_nil_r.
  - rewrite write_data_cons.
    assert (exists key, wiki_name (contents0 name) = Ok key) as (key & Hkey).
    { pose proof (Htok name (or_introl eq_refl)) as Hne.
      destruct (Py.split (contents0 name)) as [|t0 [|t1 more]] eqn:E.
      - congruence.
      - eexists. exact (wiki_name_one _ _ E).
      - eexists. exact (wiki_name_two _ _ _ _ E). }
    destruct (Hnone key) as (e & He & Hcaught).
    unfold row_of. rewrite Hkey. simpl. unfold wiki_summary.
    rewrite He, Hcaught. simpl.
    rewrite (IH _ (fun n Hn => Htok n (or_intror Hn))).
    now rewrite <- app_assoc.
Qed.

End Rows.

Lemma main_as_one_write_data_witness :
  main sample_lookup sample_listing
  = write_data sample_lookup
      (flat_map (listed sample_listing) (list_ascii_of_string Py.ascii_uppercase))
      [ ["Name"; "Link"; "Wiki Summary"] ].
Proof.
  apply (main_as_one_write_data sample_lookup sample_listing).
  intros c _. unfold sample_listing.
  destruct (artist_list_url c =? artist_list_url "P")%string;
    [| destruct (artist_list_url c =? artist_list_url "S")%string];
    eexists; reflexivity.
Defined.

Lemma main_complete_run_witness :
  exists rows,
    main sample_lookup sample_listing
    = (Ok tt, ["Name"; "Link"; "Wiki Summary"] :: rows)
    /\ Forall2 (is_row_of sample_lookup)
         (flat_map (listed sample_listing)
                   (list_ascii_of_string Py.ascii_uppercase)) rows
    /\ List.length rows
       = List.length (flat_map (listed sample_listing)
                               (list_ascii_of_string Py.ascii_uppercase)).
Proof.
  apply (main_complete_run sample_lookup sample_listing).
  intros c _. unfold sample_listing.
  destruct (artist_list_url c =? artist_list_url "P")%string;
    [| destruct (artist_list_url c =? artist_list_url "S")%string];
    eexists; (split; [reflexivity |]);
    try (intros name []; fail);
    intros name [<- | []]; (split; [discriminate |]);
    intros key e Hkey; vm_compute in Hkey; injection Hkey as <-;
    vm_compute; intros He;
    first [discriminate He | injection He as <-; reflexivity].
Defined.

Lemma main_stops_at_unread_page_witness :
  let listing := fun url =>
    if (url =? artist_list_url "B")%string
    then Raise (OtherException "AttributeError")
    else sample_listing url in
  snd (main sample_lookup listing)
  = snd (write_data sample_lookup (flat_map (listed listing) ["A"%char])
           [ ["Name"; "Link"; "Wiki Summary"] ])
  /\ (fst (write_data sample_lookup (flat_map (listed listing) ["A"%char])
             [ ["Name"; "Link"; "Wiki Summary"] ]) = Ok tt ->
      fst (main sample_lookup listing)
      = Raise (OtherException "AttributeError")).
Proof.
  intros listing.
  apply (main_stops_at_unread_page sample_lookup listing
           ["A"%char] (list_ascii_of_string "CDEFGHIJKLMNOPQRSTUVWXYZ")
           "B"%char (OtherException "AttributeError")).
  - reflexivity.
  - intros c [<- | []]. exists []. reflexivity.
  - reflexivity.
Defined.

Lemma write_data_nothing_found_witness :
  write_data (fun _ => Raise PageError)
    [ {| contents0 := "Picasso, Pablo"; href := "/a" |};
      {| contents0 := "Titian"; href := "/b" |} ]
    [ ["Name"; "Link"; "Wiki Summary"] ]
  = (Ok tt,
     [ ["Name"; "Link"; "Wiki Summary"];
       ["Picasso, Pablo"; "https://web.archive.org/a";
        "No Wikipedia Entry Available for this artist"];
       ["Titian"; "https://web.archive.org/b";
        "No Wikipedia Entry Available for this artist"] ]).
Proof.
  apply (write_data_nothing_found (fun _ => Raise PageError)
           [ {| contents0 := "Picasso, Pablo"; href := "/a" |};
             {| contents0 := "Titian"; href := "/b" |} ]
           [ ["Name"; "Link"; "Wiki Summary"] ]).
  - intros key. exists PageError. now split.
  - intros name [<- | [<- | []]]; discriminate.
Defined.

(** ** One entry from end to end, and tokens that are never keywords *)

(** X17. An entry written "Last, First", with single words and [Last] free of
    punctuation at its ends, whose lookup under "First Last" returns a page
    with that title up to letter case, gets one row: the display name, the
    prefixed link and the summary of that page, whatever the categories of
    the page. *)
Theorem write_data_title_match
        (wikipedia_page : string -> result WikipediaPage)
        (last first link : string) (page : WikipediaPage) (file : csv) :
  Py.no_space last = true -> Py.no_space first = true -> first <> "" ->
  Py.strip Py.punctuation last = last ->
  wikipedia_page (first ++ " " ++ last) = Ok page ->
  Py.lower (title page) = Py.lower (first ++ " " ++ last) ->
  write_data wikipedia_page
    [ {| contents0 := last ++ ", " ++ first; href := link |} ] file
  = (Ok tt,
     app file [ [last ++ ", " ++ first;
                 "https://web.archive.org" ++ link;
                 summary page] ]).
Proof.
  intros Hl Hf Hne Hs Hpage Htitle.
  assert (wiki_name (last ++ ", " ++ first) = Ok (first ++ " " ++ last)) as Hkey.
  { rewrite (wiki_name_two _ _ _ _ (split_last_comma_first _ _ Hl Hf Hne)).
    now rewrite (strip_snoc_any Py.punctuation last "," eq_refl), Hs. }
  rewrite write_data_cons. unfold row_of, link_of. cbn [contents0 href].
  rewrite Hkey. cbn [rbind].
  unfold wiki_summary. rewrite Hpage, Htitle, String.eqb_refl. reflexivity.
Qed.

Lemma write_data_title_match_witness :
  write_data
    (fun key => if (key =? "Pablo Picasso")%string
                then Ok {| title := "PABLO PICASSO";
                           categories := ["1881 births"];
                           summary := "Pablo Picasso was..." |}
                else Raise PageError)
    [ {| contents0 := "Picasso" ++ ", " ++ "Pablo"; href := "/a" |} ] []
  = (Ok tt,
     app [] [ ["Picasso" ++ ", " ++ "Pablo"; "https://web.archive.org" ++ "/a";
               "Pablo Picasso was..."] ]).
Proof.
  apply (write_data_title_match
           (fun key => if (key =? "Pablo Picasso")%string
                       then Ok {| title := "PABLO PICASSO";
                                  categories := ["1881 births"];
                                  summary := "Pablo Picasso was..." |}
                       else Raise PageError)
           "Picasso" "Pablo" "/a"
           {| title := "PABLO PICASSO"; categories := ["1881 births"];
              summary := "Pablo Picasso was..." |} []);
    first [reflexivity | discriminate].
Defined.

Lemma lower_char_letter (c : ascii) :
  Py.ascii_letter (Py.lower_char c) = true -> Py.ascii_letter c = true.
Proof.
  destruct c as [[] [] [] [] [] [] [] []]; vm_compute; congruence.
Qed.

Lemma lower_letters (w : string) :
  Py.all_chars Py.ascii_letter (Py.lower w) = true ->
  Py.all_chars Py.ascii_letter w = true.
Proof.
  induction w as [|c w IH]; simpl; [reflexivity |].
  intros H. apply andb_true_iff in H as [Hc Hw].
  now rewrite (lower_char_letter _ Hc), IH.
Qed.

Lemma keyword_letters (w : string) :
  in_keywords (Py.lower w) = true -> Py.all_chars Py.ascii_letter w = true.
Proof.
  intros H. apply lower_letters.
  apply in_keywords_iff in H as [-> | [-> | [-> | ->]]]; reflexivity.
Qed.

(** X18. A token that holds anything but the letters A..Z, a..z is never a
    keyword: a page all of whose category tokens hold such a character, a
    comma or a hyphen next to the word for example, is not taken for an
    artist's. *)
Theorem check_if_artist_letters_only (page : WikipediaPage) :
  (forall category word,
      In category (categories page) -> In word (Py.split category) ->
      Py.all_chars Py.ascii_letter word = false) ->
  check_if_artist page = false.
Proof.
  intros H. unfold check_if_artist.
  destruct (scan_categories (categories page)) eqn:E; [| reflexivity].
  apply scan_categories_iff in E as (category & Hc & Hw).
  apply scan_words_iff in Hw as (word & Hw & Hk).
  specialize (H category word Hc Hw).
  rewrite (keyword_letters _ Hk) in H. discriminate.
Qed.

Lemma check_if_artist_letters_only_witness :
  check_if_artist
    {| title := "A"; categories := ["Painter, sculptor."; "art-critic"];
       summary := "" |} = false.
Proof.
  apply (check_if_artist_letters_only
           {| title := "A"; categories := ["Painter, sculptor."; "art-critic"];
              summary := "" |}).
  intros category word [<- | [<- | []]] Hw; vm_compute in Hw;
    repeat (destruct Hw as [<- | Hw]; [reflexivity |]); destruct Hw.
Defined.
